(** * EmptyCard: the empty-state card of the web UI

    A shallow embedding of [web/src/components/card/EmptyCard.tsx].

    The component is a function from its props to a React element.  The
    embedding keeps the three layers the source relies on apart:

    - the JavaScript values and operators of the function body
      ([&&], [?.length], [??]), with the one operation that can throw
      (a member access on [undefined]) in an error monad;
    - the React element tree that the JSX expression builds;
    - the way React turns the children of an element into output nodes
      (what is skipped, what becomes text). *)

From Stdlib Require Import String Ascii List ZArith DecimalString.
Import ListNotations.
Local Open Scope string_scope.
Local Open Scope list_scope.

(** ** JavaScript values that can stand in a child position *)

Module Js.

(** The type of a JSX element: a host tag or one of the imported
    components.  JSX only records the component; it does not call it. *)
Inductive ElemType : Type :=
| Host (tag : string)
| Heading
| Button
| Link.

(** Every attribute the component writes is a string. *)
Definition Attrs : Type := list (string * string).

(** [React.ReactNode], restricted to integer numbers: the only number
    the component computes is a string length.  A JavaScript string is
    modelled by [string]; [String.length] stands for [.length]. *)
#[warnings="-register-all"]
Inductive ReactNode : Type :=
| RUndefined
| RNull
| RBool (b : bool)
| RNum (n : Z)
| RStr (s : string)
| RElem (ty : ElemType) (attrs : Attrs) (children : list ReactNode)
| RArr (items : list ReactNode).

(** Errors a function body can raise. *)
Inductive JsError : Type :=
| TypeError (msg : string).

Inductive Exc (A : Type) : Type :=
| Ok (a : A)
| Throw (e : JsError).
Arguments Ok {A} a.
Arguments Throw {A} e.

Definition bind {A B : Type} (m : Exc A) (k : A -> Exc B) : Exc B :=
  match m with
  | Ok a => k a
  | Throw e => Throw e
  end.

(** [string | undefined] seen as a value. *)
Definition of_opt (o : option string) : ReactNode :=
  match o with
  | Some s => RStr s
  | None => RUndefined
  end.

(** ToBoolean. *)
Definition truthy (v : ReactNode) : bool :=
  match v with
  | RUndefined | RNull => false
  | RBool b => b
  | RNum n => negb (n =? 0)%Z
  | RStr s => negb (String.eqb s "")
  | RElem _ _ _ | RArr _ => true
  end.

(** [a && b]: the left operand itself when it is falsy. *)
Definition and (a b : ReactNode) : ReactNode :=
  if truthy a then b else a.

Definition nullish (v : ReactNode) : bool :=
  match v with
  | RUndefined | RNull => true
  | _ => false
  end.

(** [a ?? b] on an optional string. *)
Definition coalesce (a : option string) (b : string) : string :=
  match a with
  | Some s => s
  | None => b
  end.

(** [v.length]: throws on [undefined] and [null]. *)
Definition length (v : ReactNode) : Exc ReactNode :=
  match v with
  | RUndefined => Throw (TypeError "Cannot read properties of undefined")
  | RNull => Throw (TypeError "Cannot read properties of null")
  | RStr s => Ok (RNum (Z.of_nat (String.length s)))
  | RArr items => Ok (RNum (Z.of_nat (List.length items)))
  | RBool _ | RNum _ | RElem _ _ _ => Ok RUndefined
  end.

(** [v?.m]: [undefined] when [v] is nullish, the member access
    otherwise. *)
Definition opt_chain (v : ReactNode) (m : ReactNode -> Exc ReactNode)
  : Exc ReactNode :=
  if nullish v then Ok RUndefined else m v.

End Js.

Import Js.

Notation "x <- m ;; k" := (Js.bind m (fun x => k))
  (at level 61, m at next level, right associativity).

(** ** What React emits for a child *)

Module Dom.

#[warnings="-register-all"]
Inductive Node : Type :=
| Text (s : string)
| Elem (ty : ElemType) (attrs : Attrs) (children : list Node).

Definition string_of_Z (n : Z) : string :=
  NilZero.string_of_int (Z.to_int n).

(** [undefined], [null], booleans and the empty string give no node; a
    number gives a text node with its decimal digits; an array is
    flattened. *)
Fixpoint render (n : ReactNode) : list Node :=
  match n with
  | RUndefined | RNull | RBool _ => []
  | RNum z => [Text (string_of_Z z)]
  | RStr s => if String.eqb s "" then [] else [Text s]
  | RElem ty attrs children => [Elem ty attrs (flat_map render children)]
  | RArr items => flat_map render items
  end.

End Dom.

(** ** The component *)

Record EmptyCardProps : Type := mkProps {
  className : option string;
  icon : ReactNode;
  title : string;
  description : option string;
  buttonText : option string;
  link : option string
}.

(** An argument of [cn]: here a string or [undefined]. *)
Definition ClassValue : Type := option string.

(** [<ty attrs>children</ty>] *)
Definition jsx (ty : ElemType) (attrs : Attrs) (children : list ReactNode)
  : ReactNode :=
  RElem ty attrs children.

Section Component.

(** [cn] of [@/lib/utils] merges class names; the card only passes its
    arguments on, so it is left open here. *)
Variable cn : list ClassValue -> string.

Definition EmptyCard (props : EmptyCardProps) : Exc ReactNode :=
  let description := of_opt (description props) in
  let buttonText := of_opt (buttonText props) in
  len <- opt_chain buttonText Js.length ;;
  Ok (jsx (Host "div")
        [("className",
          cn [Some "flex flex-col items-center gap-2"; className props])]
        [ icon props;
          jsx Heading [("as", "h4")] [RStr (title props)];
          Js.and description
            (jsx (Host "div")
               [("className", "mb-3 text-secondary-foreground")]
               [description]);
          Js.and len
            (jsx Button [("size", "sm"); ("variant", "select")]
               [jsx Link [("to", coalesce (link props) "#")]
                  [buttonText]]) ]).

End Component.

(** ** Reading an output *)

Definition children_of (e : ReactNode) : list ReactNode :=
  match e with
  | RElem _ _ children => children
  | _ => []
  end.

(** The children the card writes itself: all but the caller's icon, which
    comes first and is passed through as it is. *)
Definition own_children (e : ReactNode) : list ReactNode :=
  tl (children_of e).

(** An action: a [Button] element. *)
Definition is_action (n : ReactNode) : bool :=
  match n with
  | RElem Button _ _ => true
  | _ => false
  end.

(** A description line: a [div] element. *)
Definition is_description_line (n : ReactNode) : bool :=
  match n with
  | RElem (Host tag) _ _ => String.eqb tag "div"
  | _ => false
  end.

(** The same two tests on emitted nodes. *)
Definition dom_is_action (n : Dom.Node) : bool :=
  match n with
  | Dom.Elem Button _ _ => true
  | _ => false
  end.

Definition dom_is_description_line (n : Dom.Node) : bool :=
  match n with
  | Dom.Elem (Host tag) _ _ => String.eqb tag "div"
  | _ => false
  end.

(** What React emits for a list of children. *)
Definition emitted (children : list ReactNode) : list Dom.Node :=
  flat_map Dom.render children.

(** A text node, as opposed to an element. *)
Definition dom_is_text (n : Dom.Node) : bool :=
  match n with
  | Dom.Text _ => true
  | Dom.Elem _ _ _ => false
  end.

(** The expected shapes. *)
Definition container (class : string) (children : list ReactNode)
  : ReactNode :=
  RElem (Host "div") [("className", class)] children.

Definition heading (t : string) : ReactNode :=
  RElem Heading [("as", "h4")] [RStr t].

Definition description_line (d : string) : ReactNode :=
  RElem (Host "div") [("className", "mb-3 text-secondary-foreground")]
    [RStr d].

Definition action_element (label target : string) : ReactNode :=
  RElem Button [("size", "sm"); ("variant", "select")]
    [RElem Link [("to", target)] [RStr label]].

Definition base_classes : string := "flex flex-col items-center gap-2".

(** A class joiner in the manner of [clsx]: the non-empty strings, with one
    space between them.  It instantiates [cn] in the examples. *)
Fixpoint clsx (inputs : list ClassValue) : string :=
  match inputs with
  | [] => ""
  | None :: rest => clsx rest
  | Some s :: rest =>
      if String.eqb s "" then clsx rest
      else
        let r := clsx rest in
        if String.eqb r "" then s else (s ++ " " ++ r)%string
  end.

(** The two scenarios of the specification. *)
Definition scenario_bare (cls : option string) (ic : ReactNode)
  (l : option string) : EmptyCardProps :=
  mkProps cls ic "No items" None None l.

Definition scenario_full (cls : option string) (ic : ReactNode)
  : EmptyCardProps :=
  mkProps cls ic "No items" (Some "Add one to get started") (Some "Add")
    (Some "/new").

Definition sample_icon : ReactNode :=
  RElem (Host "svg") [("className", "size-8")] [].

(** ** The output, slot by slot *)

(** The third child: [description && <div ...>]. *)
Definition description_slot (d : option string) : ReactNode :=
  match d with
  | None => RUndefined
  | Some "" => RStr ""
  | Some s => description_line s
  end.

(** The fourth child: [buttonText?.length && <Button ...>]. *)
Definition action_slot (b l : option string) : ReactNode :=
  match b with
  | None => RUndefined
  | Some "" => RNum 0
  | Some s => action_element s (match l with Some t => t | None => "#" end)
  end.

(** ** The class merger

    [cn] lives in [@/lib/utils], outside the sources at hand: it is
    [twMerge(clsx(inputs))].  [clsx] above joins the inputs; what follows is
    the part of the merge that decides the fate of the card's base classes:
    of two classes of one Tailwind group the later one wins.  The tables
    list the plain classes of the four groups the base classes belong to,
    with the default spacing scale for [gap]; any other class belongs to no
    group here and is kept as it is. *)

Inductive ClassGroup : Type :=
| Display
| FlexDirection
| AlignItems
| Gap.

Definition ClassGroup_eqb (a b : ClassGroup) : bool :=
  match a, b with
  | Display, Display | FlexDirection, FlexDirection
  | AlignItems, AlignItems | Gap, Gap => true
  | _, _ => false
  end.

Definition display_classes : list string :=
  [ "block"; "inline-block"; "inline"; "flex"; "inline-flex"; "table";
    "inline-table"; "table-caption"; "table-cell"; "table-column";
    "table-column-group"; "table-footer-group"; "table-header-group";
    "table-row-group"; "table-row"; "flow-root"; "grid"; "inline-grid";
    "contents"; "list-item"; "hidden" ].

Definition flex_direction_classes : list string :=
  [ "flex-row"; "flex-row-reverse"; "flex-col"; "flex-col-reverse" ].

Definition align_items_classes : list string :=
  [ "items-start"; "items-end"; "items-center"; "items-baseline";
    "items-stretch" ].

Definition spacing_scale : list string :=
  [ "0"; "px"; "0.5"; "1"; "1.5"; "2"; "2.5"; "3"; "3.5"; "4"; "5"; "6";
    "7"; "8"; "9"; "10"; "11"; "12"; "14"; "16"; "20"; "24"; "28"; "32";
    "36"; "40"; "44"; "48"; "52"; "56"; "60"; "64"; "72"; "80"; "96" ].

Definition gap_classes : list string :=
  map (fun v => ("gap-" ++ v)%string) spacing_scale.

Definition mem (c : string) (l : list string) : bool :=
  existsb (String.eqb c) l.

Definition class_group (c : string) : option ClassGroup :=
  if mem c display_classes then Some Display
  else if mem c flex_direction_classes then Some FlexDirection
  else if mem c align_items_classes then Some AlignItems
  else if mem c gap_classes then Some Gap
  else None.

Definition is_space (c : ascii) : bool :=
  match nat_of_ascii c with
  | 9 | 10 | 11 | 12 | 13 | 32 => true
  | _ => false
  end.

(** The classes of a class string: its pieces between white space. *)
Fixpoint tokens_from (cur s : string) : list string :=
  match s with
  | EmptyString => if String.eqb cur "" then [] else [cur]
  | String c rest =>
      if is_space c then
        if String.eqb cur "" then tokens_from "" rest
        else cur :: tokens_from "" rest
      else tokens_from (cur ++ String c "")%string rest
  end.

Definition tokens (s : string) : list string := tokens_from "" s.

(** A class is dropped when a later one is of its group. *)
Definition overridden (c : string) (later : list string) : bool :=
  match class_group c with
  | None => false
  | Some g =>
      existsb (fun u => match class_group u with
                        | Some h => ClassGroup_eqb g h
                        | None => false
                        end) later
  end.

Fixpoint merge_groups (classes : list string) : list string :=
  match classes with
  | [] => []
  | c :: later =>
      if overridden c later then merge_groups later
      else c :: merge_groups later
  end.

Definition twMerge (s : string) : string :=
  String.concat " " (merge_groups (tokens s)).

Definition cn_merge (inputs : list ClassValue) : string :=
  twMerge (clsx inputs).



(** ** Rendering inside an environment

    A function component runs inside whatever mutable state its
    environment has: module variables, the router's location, the state
    React keeps for hooks.  [World] stands for all of it; a computation may
    read it, change it and throw. *)

Module Effectful.

Section World.

Variable World : Type.

Definition M (A : Type) : Type := World -> Exc A * World.

Definition ret {A : Type} (a : A) : M A := fun w => (Ok a, w).

Definition bind {A B : Type} (m : M A) (k : A -> M B) : M B :=
  fun w =>
    match m w with
    | (Ok a, w') => k a w'
    | (Throw e, w') => (Throw e, w')
    end.

(** A step that only computes. *)
Definition lift {A : Type} (x : Exc A) : M A := fun w => (x, w).

(** [cn] is an imported function: here it may do anything. *)
Variable cn : list ClassValue -> M string.

(** The body of the card, in evaluation order: the [className] attribute
    first, then the children. *)
Definition EmptyCard (props : EmptyCardProps) : M ReactNode :=
  let description := of_opt (description props) in
  let buttonText := of_opt (buttonText props) in
  bind (cn [Some "flex flex-col items-center gap-2"; className props])
    (fun class =>
  bind (lift (opt_chain buttonText Js.length))
    (fun len =>
  ret (jsx (Host "div")
         [("className", class)]
         [ icon props;
           jsx Heading [("as", "h4")] [RStr (title props)];
           Js.and description
             (jsx (Host "div")
                [("className", "mb-3 text-secondary-foreground")]
                [description]);
           Js.and len
             (jsx Button [("size", "sm"); ("variant", "select")]
                [jsx Link [("to", coalesce (link props) "#")]
                   [buttonText]]) ]))).

End World.

Arguments ret {World A} a.
Arguments bind {World A B} m k.
Arguments lift {World A} x.

End Effectful.

(** A merger that counts its calls in the world. *)
Definition counting_cn (inputs : list ClassValue) : Effectful.M nat string :=
  fun calls => (Ok (clsx inputs), S calls).

Lemma EmptyCard_shape (cn : list ClassValue -> string) (p : EmptyCardProps) :
  EmptyCard cn p =
  Ok (container (cn [Some base_classes; className p])
        [ icon p; heading (title p);
          description_slot (description p);
          action_slot (buttonText p) (link p) ]).
Proof.
  destruct p as [cls ic t d b l].
  destruct b as [[| c b] |], d as [[| c' d] |], l; reflexivity.
Qed.

Lemma description_slot_not_action (d : option string) :
  is_action (description_slot d) = false.
Proof. destruct d as [[| c d] |]; reflexivity. Qed.

Lemma description_slot_emits_no_action (d : option string) :
  filter dom_is_action (Dom.render (description_slot d)) = [].
Proof. destruct d as [[| c d] |]; reflexivity. Qed.

Lemma action_slot_not_description (b l : option string) :
  is_description_line (action_slot b l) = false.
Proof. destruct b as [[| c b] |]; reflexivity. Qed.

Lemma action_slot_emits_no_description (b l : option string) :
  filter dom_is_description_line (Dom.render (action_slot b l)) = [].
Proof. destruct b as [[| c b] |]; reflexivity. Qed.

Lemma emitted_cons (n : ReactNode) (rest : list ReactNode) :
  emitted (n :: rest) = Dom.render n ++ emitted rest.
Proof. reflexivity. Qed.

(** The member access of the guard throws on an absent label; the optional
    chaining of the source turns that case into [undefined]. *)
Lemma length_guarded :
  Js.length (of_opt None)
  = Throw (TypeError "Cannot read properties of undefined")
  /\ opt_chain (of_opt None) Js.length = Ok RUndefined.
Proof. split; reflexivity. Qed.

(** ** Properties of the card *)

Section Properties.

Variable cn : list ClassValue -> string.

(** C1: when [buttonText] is a non-empty string, the fourth child is the
    action, a [Button] around a [Link] labelled with [buttonText] whose
    target is [link], or ["#"] when [link] is absent; it is the only action
    among the children the card writes, in the element and in what React
    emits for it. *)
Theorem action_present (p : EmptyCardProps) (b : string) :
  buttonText p = Some b ->
  b <> "" ->
  let target := match link p with Some l => l | None => "#" end in
  exists e,
    EmptyCard cn p = Ok e
    /\ nth_error (children_of e) 3 = Some (action_element b target)
    /\ filter is_action (own_children e) = [action_element b target]
    /\ filter dom_is_action (emitted (own_children e))
       = [Dom.Elem Button [("size", "sm"); ("variant", "select")]
            [Dom.Elem Link [("to", target)] [Dom.Text b]]].
Proof.
  intros Hb Hne target. subst target.
  rewrite EmptyCard_shape, Hb.
  destruct b as [| c b]; [congruence |].
  eexists; split; [reflexivity |].
  cbn [children_of own_children container tl action_slot nth_error].
  repeat split.
  - cbn [filter heading is_action].
    rewrite description_slot_not_action. reflexivity.
  - rewrite !emitted_cons, !filter_app, description_slot_emits_no_action.
    reflexivity.
Qed.

(** C2: when [buttonText] is absent or the empty string, no child the
    card writes is an action, and React emits no action for them. *)
Theorem action_absent (p : EmptyCardProps) :
  buttonText p = None \/ buttonText p = Some "" ->
  exists e,
    EmptyCard cn p = Ok e
    /\ filter is_action (own_children e) = []
    /\ filter dom_is_action (emitted (own_children e)) = [].
Proof.
  intros H. rewrite EmptyCard_shape.
  eexists; split; [reflexivity |].
  cbn [children_of own_children container tl].
  split.
  - cbn [filter heading is_action].
    rewrite description_slot_not_action.
    destruct H as [-> | ->]; reflexivity.
  - rewrite !emitted_cons, !filter_app, description_slot_emits_no_action.
    destruct H as [-> | ->]; reflexivity.
Qed.

(** C3: when [description] is absent, the third child is [undefined]; no
    child the card writes is a description line and React emits none. *)
Theorem description_absent (p : EmptyCardProps) :
  description p = None ->
  exists e,
    EmptyCard cn p = Ok e
    /\ nth_error (children_of e) 2 = Some RUndefined
    /\ filter is_description_line (own_children e) = []
    /\ filter dom_is_description_line (emitted (own_children e)) = [].
Proof.
  intros H. rewrite EmptyCard_shape, H.
  eexists; split; [reflexivity |].
  cbn [children_of own_children container tl description_slot nth_error].
  repeat split.
  - cbn [filter heading is_description_line].
    rewrite action_slot_not_description. reflexivity.
  - rewrite !emitted_cons, !filter_app, action_slot_emits_no_description.
    reflexivity.
Qed.

(** C4: for title ["No items"] with neither description nor button text,
    the children are the icon, the heading and two [undefined]; React emits
    what the icon gives, then the heading, and nothing more. *)
Theorem scenario_bare_output (cls : option string) (ic : ReactNode)
  (l : option string) :
  exists e,
    EmptyCard cn (scenario_bare cls ic l) = Ok e
    /\ children_of e = [ic; heading "No items"; RUndefined; RUndefined]
    /\ Dom.render e
       = [Dom.Elem (Host "div")
            [("className", cn [Some base_classes; cls])]
            (Dom.render ic
             ++ [Dom.Elem Heading [("as", "h4")] [Dom.Text "No items"]])].
Proof.
  rewrite EmptyCard_shape.
  eexists; split; [reflexivity |].
  split; reflexivity.
Qed.

(** C5: for title ["No items"], description ["Add one to get started"],
    button text ["Add"] and link ["/new"], the children are, in this order,
    the icon, the heading with the title, the description line with the
    description and the action labelled ["Add"] with target ["/new"]; React
    emits them in the same order. *)
Theorem scenario_full_output (cls : option string) (ic : ReactNode) :
  exists e,
    EmptyCard cn (scenario_full cls ic) = Ok e
    /\ children_of e
       = [ ic;
           heading "No items";
           description_line "Add one to get started";
           action_element "Add" "/new" ]
    /\ Dom.render e
       = [Dom.Elem (Host "div")
            [("className", cn [Some base_classes; cls])]
            (Dom.render ic
             ++ [ Dom.Elem Heading [("as", "h4")] [Dom.Text "No items"];
                  Dom.Elem (Host "div")
                    [("className", "mb-3 text-secondary-foreground")]
                    [Dom.Text "Add one to get started"];
                  Dom.Elem Button [("size", "sm"); ("variant", "select")]
                    [Dom.Elem Link [("to", "/new")] [Dom.Text "Add"]] ])].
Proof.
  rewrite EmptyCard_shape.
  eexists; split; [reflexivity |].
  split; reflexivity.
Qed.

(** C6: the card returns an element for every configuration.  With the
    description absent the third child is [undefined], with the button text
    absent the fourth child is [undefined], whatever the other fields are,
    and React emits nothing for [undefined]; with every optional field
    absent the output is the icon and the heading. *)
Theorem render_total :
  (forall p, exists e, EmptyCard cn p = Ok e)
  /\ (forall cls ic t b l,
        exists a,
          EmptyCard cn (mkProps cls ic t None b l)
          = Ok (container (cn [Some base_classes; cls])
                  [ic; heading t; RUndefined; a]))
  /\ (forall cls ic t d l,
        exists s,
          EmptyCard cn (mkProps cls ic t d None l)
          = Ok (container (cn [Some base_classes; cls])
                  [ic; heading t; s; RUndefined]))
  /\ Dom.render RUndefined = []
  /\ (forall ic t,
        EmptyCard cn (mkProps None ic t None None None)
        = Ok (container (cn [Some base_classes; None])
                [ic; heading t; RUndefined; RUndefined])
        /\ emitted [ic; heading t; RUndefined; RUndefined]
           = Dom.render ic ++ Dom.render (heading t)).
Proof.
  split; [| split; [| split; [| split]]].
  - intros p. rewrite EmptyCard_shape. eexists; reflexivity.
  - intros. rewrite EmptyCard_shape. eexists; reflexivity.
  - intros. rewrite EmptyCard_shape. eexists; reflexivity.
  - reflexivity.
  - intros ic t. split.
    + apply EmptyCard_shape.
    + rewrite !emitted_cons. cbn [emitted flat_map].
      change (Dom.render RUndefined) with (@nil Dom.Node).
      rewrite !app_nil_r. reflexivity.
Qed.

(** C8: when [description] is the empty string, the guard is that empty
    string: the third child is [""], for which React emits nothing; no
    child the card writes is a description line and React emits none. *)
Theorem description_empty (p : EmptyCardProps) :
  description p = Some "" ->
  exists e,
    EmptyCard cn p = Ok e
    /\ nth_error (children_of e) 2 = Some (RStr "")
    /\ Dom.render (RStr "") = []
    /\ filter is_description_line (own_children e) = []
    /\ filter dom_is_description_line (emitted (own_children e)) = [].
Proof.
  intros H. rewrite EmptyCard_shape, H.
  eexists; split; [reflexivity |].
  cbn [children_of own_children container tl description_slot nth_error].
  repeat split.
  - cbn [filter heading is_description_line].
    rewrite action_slot_not_description. reflexivity.
  - rewrite !emitted_cons, !filter_app, action_slot_emits_no_description.
    reflexivity.
Qed.

(** C9: with [buttonText] the empty string the guard [buttonText?.length]
    is the number [0]; it is the fourth child and React emits the text
    ["0"] for it.  With [buttonText] absent the guard is [undefined]; it is
    the fourth child and React emits nothing for it. *)
Theorem empty_label_leaves_zero (cls : option string) (ic : ReactNode)
  (t : string) (d l : option string) :
  (opt_chain (of_opt (Some "")) Js.length = Ok (RNum 0)
   /\ EmptyCard cn (mkProps cls ic t d (Some "") l)
      = Ok (container (cn [Some base_classes; cls])
              [ic; heading t; description_slot d; RNum 0])
   /\ Dom.render (RNum 0) = [Dom.Text "0"])
  /\ (opt_chain (of_opt None) Js.length = Ok RUndefined
      /\ EmptyCard cn (mkProps cls ic t d None l)
         = Ok (container (cn [Some base_classes; cls])
                 [ic; heading t; description_slot d; RUndefined])
      /\ Dom.render RUndefined = []).
Proof.
  split; (split; [reflexivity | split; [apply EmptyCard_shape | reflexivity]]).
Qed.

End Properties.

(** ** Concrete runs *)

Example full_card_runs :
  EmptyCard clsx (scenario_full (Some "mt-4") sample_icon)
  = Ok (RElem (Host "div")
          [("className", "flex flex-col items-center gap-2 mt-4")]
          [ sample_icon;
            RElem Heading [("as", "h4")] [RStr "No items"];
            RElem (Host "div")
              [("className", "mb-3 text-secondary-foreground")]
              [RStr "Add one to get started"];
            RElem Button [("size", "sm"); ("variant", "select")]
              [RElem Link [("to", "/new")] [RStr "Add"]] ]).
Proof. reflexivity. Qed.

Example fallback_target_runs :
  EmptyCard clsx (mkProps None sample_icon "Empty" None (Some "Go") None)
  = Ok (RElem (Host "div")
          [("className", "flex flex-col items-center gap-2")]
          [ sample_icon;
            RElem Heading [("as", "h4")] [RStr "Empty"];
            RUndefined;
            RElem Button [("size", "sm"); ("variant", "select")]
              [RElem Link [("to", "#")] [RStr "Go"]] ]).
Proof. reflexivity. Qed.

Example empty_strings_run :
  EmptyCard clsx (mkProps None sample_icon "Empty" (Some "") (Some "") None)
  = Ok (RElem (Host "div")
          [("className", "flex flex-col items-center gap-2")]
          [ sample_icon;
            RElem Heading [("as", "h4")] [RStr "Empty"];
            RStr "";
            RNum 0 ]).
Proof. reflexivity. Qed.

Example empty_strings_emit :
  emitted [ sample_icon; heading "Empty"; RStr ""; RNum 0 ]
  = [ Dom.Elem (Host "svg") [("className", "size-8")] [];
      Dom.Elem Heading [("as", "h4")] [Dom.Text "Empty"];
      Dom.Text "0" ].
Proof. reflexivity. Qed.

(** ** Instances of the conditional properties *)

Lemma action_present_witness :
  buttonText (scenario_full (Some "mt-4") sample_icon) = Some "Add"
  /\ "Add" <> ""
  /\ exists e,
       EmptyCard clsx (scenario_full (Some "mt-4") sample_icon) = Ok e
       /\ nth_error (children_of e) 3 = Some (action_element "Add" "/new")
       /\ filter is_action (own_children e) = [action_element "Add" "/new"]
       /\ filter dom_is_action (emitted (own_children e))
          = [Dom.Elem Button [("size", "sm"); ("variant", "select")]
               [Dom.Elem Link [("to", "/new")] [Dom.Text "Add"]]].
Proof.
  split; [reflexivity |]. split; [discriminate |].
  apply (action_present clsx (scenario_full (Some "mt-4") sample_icon) "Add");
    [reflexivity | discriminate].
Defined.

Lemma action_absent_witness :
  (buttonText (mkProps None sample_icon "Empty" (Some "Nothing here")
                 (Some "") (Some "/new")) = None
   \/ buttonText (mkProps None sample_icon "Empty" (Some "Nothing here")
                    (Some "") (Some "/new")) = Some "")
  /\ exists e,
       EmptyCard clsx (mkProps None sample_icon "Empty" (Some "Nothing here")
                         (Some "") (Some "/new")) = Ok e
       /\ filter is_action (own_children e) = []
       /\ filter dom_is_action (emitted (own_children e)) = [].
Proof.
  split; [right; reflexivity |].
  apply (action_absent clsx
           (mkProps None sample_icon "Empty" (Some "Nothing here")
              (Some "") (Some "/new"))).
  right; reflexivity.
Defined.

Lemma description_absent_witness :
  description (scenario_bare (Some "mt-4") sample_icon None) = None
  /\ exists e,
       EmptyCard clsx (scenario_bare (Some "mt-4") sample_icon None) = Ok e
       /\ nth_error (children_of e) 2 = Some RUndefined
       /\ filter is_description_line (own_children e) = []
       /\ filter dom_is_description_line (emitted (own_children e)) = [].
Proof.
  split; [reflexivity |].
  apply (description_absent clsx (scenario_bare (Some "mt-4") sample_icon None)).
  reflexivity.
Defined.

Lemma description_empty_witness :
  description (mkProps None sample_icon "Empty" (Some "") (Some "Go") None)
  = Some ""
  /\ exists e,
       EmptyCard clsx
         (mkProps None sample_icon "Empty" (Some "") (Some "Go") None) = Ok e
       /\ nth_error (children_of e) 2 = Some (RStr "")
       /\ Dom.render (RStr "") = []
       /\ filter is_description_line (own_children e) = []
       /\ filter dom_is_description_line (emitted (own_children e)) = [].
Proof.
  split; [reflexivity |].
  apply (description_empty clsx
           (mkProps None sample_icon "Empty" (Some "") (Some "Go") None)).
  reflexivity.
Defined.

(** ** Further properties of the card *)

(** X1: when [description] is a non-empty string, the third child is the
    description line, a [div] of class ["mb-3 text-secondary-foreground"]
    that holds the description; it is the only [div] among the children the
    card writes, in the element and in what React emits for it. *)
Theorem description_present (cn : list ClassValue -> string)
  (p : EmptyCardProps) (d : string) :
  description p = Some d ->
  d <> "" ->
  exists e,
    EmptyCard cn p = Ok e
    /\ nth_error (children_of e) 2 = Some (description_line d)
    /\ filter is_description_line (own_children e) = [description_line d]
    /\ filter dom_is_description_line (emitted (own_children e))
       = [Dom.Elem (Host "div")
            [("className", "mb-3 text-secondary-foreground")]
            [Dom.Text d]].
Proof.
  intros Hd Hne.
  rewrite EmptyCard_shape, Hd.
  destruct d as [| c d]; [congruence |].
  eexists; split; [reflexivity |].
  cbn [children_of own_children container tl description_slot nth_error].
  repeat split.
  - cbn [filter heading description_line is_description_line String.eqb
           Ascii.eqb Bool.eqb].
    rewrite action_slot_not_description. reflexivity.
  - rewrite !emitted_cons, !filter_app.
    change (emitted []) with (@nil Dom.Node).
    rewrite action_slot_emits_no_description. reflexivity.
Qed.

(** X2: when [buttonText] is absent or the empty string the card does not
    use [link]: any two targets give the same result. *)
Theorem link_unused_without_label (cn : list ClassValue -> string)
  (cls : option string) (ic : ReactNode) (t : string)
  (d b l l' : option string) :
  b = None \/ b = Some "" ->
  EmptyCard cn (mkProps cls ic t d b l)
  = EmptyCard cn (mkProps cls ic t d b l').
Proof.
  intros [-> | ->]; rewrite !EmptyCard_shape; reflexivity.
Qed.

(** X3: among the nodes React emits for the children the card writes, a
    bare text node occurs exactly when [buttonText] is the empty string, and
    it is then the single text ["0"]; every other configuration emits
    elements only. *)
Theorem bare_text_only_for_empty_label (cn : list ClassValue -> string)
  (p : EmptyCardProps) :
  exists e,
    EmptyCard cn p = Ok e
    /\ filter dom_is_text (emitted (own_children e))
       = match buttonText p with
         | Some "" => [Dom.Text "0"]
         | _ => []
         end.
Proof.
  rewrite EmptyCard_shape.
  eexists; split; [reflexivity |].
  destruct p as [cls ic t d b l].
  destruct d as [[| c d] |], b as [[| c' b] |]; reflexivity.
Qed.

(** X4: the element always has four children.  For the three the card
    writes React emits the heading, one more node when [description] is
    non-empty, and one more when [buttonText] is present, the empty string
    included. *)
Theorem emitted_count (cn : list ClassValue -> string) (p : EmptyCardProps) :
  exists e,
    EmptyCard cn p = Ok e
    /\ List.length (children_of e) = 4
    /\ List.length (emitted (own_children e))
       = 1
         + match description p with Some (String _ _) => 1 | _ => 0 end
         + match buttonText p with Some _ => 1 | None => 0 end.
Proof.
  rewrite EmptyCard_shape.
  eexists; split; [reflexivity |].
  destruct p as [cls ic t d b l].
  destruct d as [[| c d] |], b as [[| c' b] |]; split; reflexivity.
Qed.

(** X5: React emits one [div] for the card; inside it come the nodes of
    the icon, unchanged, then the heading, then at most two more nodes.  The
    heading is emitted for every title; for the empty title it has no text
    inside. *)
Theorem heading_always_emitted (cn : list ClassValue -> string)
  (p : EmptyCardProps) :
  exists e rest,
    EmptyCard cn p = Ok e
    /\ Dom.render e
       = [Dom.Elem (Host "div")
            [("className", cn [Some base_classes; className p])]
            (Dom.render (icon p)
             ++ Dom.Elem Heading [("as", "h4")]
                  match title p with
                  | "" => []
                  | String _ _ => [Dom.Text (title p)]
                  end
                :: rest)]
    /\ List.length rest <= 2
    /\ filter (fun n => match n with
                        | Dom.Elem Heading _ _ => true
                        | _ => false
                        end) rest = [].
Proof.
  rewrite EmptyCard_shape.
  destruct p as [cls ic t d b l].
  exists (container (cn [Some base_classes; cls])
            [ic; heading t; description_slot d; action_slot b l]).
  exists (emitted [description_slot d; action_slot b l]).
  split; [reflexivity |]. split.
  - cbn [className icon title]. destruct t; reflexivity.
  - destruct d as [[| c d] |], b as [[| c' b] |];
      (split; [cbn; repeat constructor | reflexivity]).
Qed.

Lemma description_present_witness :
  description (scenario_full None sample_icon)
  = Some "Add one to get started"
  /\ "Add one to get started" <> ""
  /\ exists e,
       EmptyCard clsx (scenario_full None sample_icon) = Ok e
       /\ nth_error (children_of e) 2
          = Some (description_line "Add one to get started")
       /\ filter is_description_line (own_children e)
          = [description_line "Add one to get started"]
       /\ filter dom_is_description_line (emitted (own_children e))
          = [Dom.Elem (Host "div")
               [("className", "mb-3 text-secondary-foreground")]
               [Dom.Text "Add one to get started"]].
Proof.
  split; [reflexivity |]. split; [discriminate |].
  apply (description_present clsx (scenario_full None sample_icon)
           "Add one to get started");
    [reflexivity | discriminate].
Defined.

Lemma link_unused_without_label_witness :
  (Some "" = None \/ Some "" = Some "")
  /\ EmptyCard clsx
       (mkProps None sample_icon "Empty" None (Some "") (Some "/new"))
     = EmptyCard clsx
         (mkProps None sample_icon "Empty" None (Some "") None).
Proof.
  split; [right; reflexivity |].
  apply (link_unused_without_label clsx None sample_icon "Empty" None
           (Some "") (Some "/new") None).
  right; reflexivity.
Defined.

(** ** The class of the container *)

Example merge_keeps_other_classes :
  cn_merge [Some base_classes; Some "mt-4"]
  = "flex flex-col items-center gap-2 mt-4".
Proof. reflexivity. Qed.

Example merge_later_class_wins :
  cn_merge [Some base_classes; Some "  mt-4 flex-row  md:gap-8 grid"]
  = "items-center gap-2 mt-4 flex-row md:gap-8 grid".
Proof. reflexivity. Qed.



(** ** Rendering and the environment *)


Example counted_render :
  Effectful.EmptyCard nat counting_cn (scenario_bare None sample_icon None) 0
  = (Ok (container "flex flex-col items-center gap-2"
           [sample_icon; heading "No items"; RUndefined; RUndefined]),
     1).
Proof. reflexivity. Qed.


